(** * The audio range-request handler of [server.py]

    A shallow embedding of [MyHTTPRequestHandler] (its [end_headers]
    override and its [do_GET]) together with the properties the
    specification states about it.

    Modelling scope.
    - Request paths and header values are latin-1 decoded text in
      [http.server], so [string] (8-bit characters) is their exact type.
    - Python integers are unbounded: [Z].  The interpreter's configurable
      limit on the number of digits of a decimal literal is not modelled.
    - The base class ([BaseHTTPRequestHandler]) buffers the status line
      and the header fields and writes them in one piece when
      [end_headers] is called; this is the behaviour for HTTP/1.x
      requests, the only ones considered (for an HTTP/0.9 simple request
      the base class emits no status line and no header at all).
    - The file system is read-only during a request and is given by the
      three operations the handler calls: [os.path.exists],
      [os.path.getsize] and [open(_, 'rb')].
    - Writing to the socket does not fail and memory is not exhausted. *)

From Stdlib Require Import ZArith Lia List String Ascii Bool.
From Stdlib Require Import Decimal DecimalString DecimalPos DecimalZ.
From Stdlib Require Init.Byte.
Import ListNotations.

Local Open Scope string_scope.
Local Open Scope list_scope.
Local Open Scope Z_scope.

Abbreviation byte := Init.Byte.byte.

(** ** Python's [str] operations used by the handler *)

Module PyStr.

(** [s.startswith(p)] *)
Fixpoint startswith (p s : string) : bool :=
  match p, s with
  | EmptyString, _ => true
  | String a p', String b s' => Ascii.eqb a b && startswith p' s'
  | String _ _, EmptyString => false
  end.

(** [s.endswith(suf)] *)
Definition endswith (s suf : string) : bool :=
  let n := String.length s in
  let m := String.length suf in
  Nat.leb m n && String.eqb (substring (n - m) m s) suf.

(** [s.endswith((a, b, ...))]: some member of the tuple is a suffix. *)
Definition endswith_any (s : string) (sufs : list string) : bool :=
  existsb (endswith s) sufs.

(** [c in chars] for a character. *)
Fixpoint mem (c : ascii) (chars : string) : bool :=
  match chars with
  | EmptyString => false
  | String a chars' => Ascii.eqb a c || mem c chars'
  end.

(** [s.lstrip(chars)]: drop the leading characters that belong to
    [chars]. *)
Fixpoint lstrip (chars s : string) : string :=
  match s with
  | EmptyString => EmptyString
  | String c s' => if mem c chars then lstrip chars s' else s
  end.

(** [sub in s] *)
Fixpoint contains (sub s : string) : bool :=
  startswith sub s ||
  match s with
  | EmptyString => false
  | String _ s' => contains sub s'
  end.

(** [s.replace(old, new)] for a non-empty [old]: the occurrences of
    [old] are replaced from left to right, without overlap.  [skip]
    counts the characters of a matched occurrence still to be dropped. *)
Fixpoint replace_from (old new : string) (skip : nat) (s : string) : string :=
  match s with
  | EmptyString => EmptyString
  | String c s' =>
      match skip with
      | S k => replace_from old new k s'
      | O =>
          if startswith old s
          then new ++ replace_from old new (String.length old - 1) s'
          else String c (replace_from old new 0 s')
      end
  end.

Definition replace (old new s : string) : string :=
  replace_from old new 0 s.

(** [s.split(sep)] for a one-character separator: never the empty
    list. *)
Fixpoint split (sep : ascii) (s : string) : list string :=
  match s with
  | EmptyString => [EmptyString]
  | String c s' =>
      if Ascii.eqb c sep then EmptyString :: split sep s'
      else match split sep s' with
           | w :: ws => String c w :: ws
           | [] => [String c EmptyString]
           end
  end.

(** Truth value of a string: non-empty. *)
Definition truthy (s : string) : bool :=
  match s with
  | EmptyString => false
  | String _ _ => true
  end.

(** [s.lower()] on the ASCII letters (header names are ASCII). *)
Definition lower_ascii (c : ascii) : ascii :=
  let n := nat_of_ascii c in
  if Nat.leb 65 n && Nat.leb n 90 then ascii_of_nat (n + 32) else c.

Fixpoint lower (s : string) : string :=
  match s with
  | EmptyString => EmptyString
  | String c s' => String (lower_ascii c) (lower s')
  end.

End PyStr.

(** ** Exceptions and results *)

Inductive exn : Type :=
| ValueError_int (literal : string)   (* int(literal) on a malformed literal *)
| IndexError_list                     (* list index out of range *)
| ValueError_read                     (* f.read(n) with n < -1 *)
| OSError (message : string).         (* raised by the operating system *)

Inductive result (A : Type) : Type :=
| Ok (a : A)
| Raise (e : exn).

Arguments Ok {A} a.
Arguments Raise {A} e.

Definition rbind {A B : Type} (r : result A) (k : A -> result B) : result B :=
  match r with
  | Ok a => k a
  | Raise e => Raise e
  end.

Notation "x <-? r ; k" := (rbind r (fun x => k))
  (at level 61, r at next level, right associativity).

(** [xs[i]] *)
Definition index {A : Type} (xs : list A) (i : nat) : result A :=
  match nth_error xs i with
  | Some x => Ok x
  | None => Raise IndexError_list
  end.

(** ** Python's [int(str)] and [str(int)] in base 10 *)

Module PyInt.

(** The characters [int] skips around a literal: the ASCII white space
    and, in the latin-1 range, NEL and the no-break space. *)
Definition is_space (c : ascii) : bool :=
  let n := nat_of_ascii c in
  (Nat.leb 9 n && Nat.leb n 13) || Nat.eqb n 32 || Nat.eqb n 133 || Nat.eqb n 160.

Definition digit_of (c : ascii) : option (uint -> uint) :=
  match c with
  | "0"%char => Some D0
  | "1"%char => Some D1
  | "2"%char => Some D2
  | "3"%char => Some D3
  | "4"%char => Some D4
  | "5"%char => Some D5
  | "6"%char => Some D6
  | "7"%char => Some D7
  | "8"%char => Some D8
  | "9"%char => Some D9
  | _ => None
  end.

Fixpoint skip_space (s : string) : string :=
  match s with
  | EmptyString => EmptyString
  | String c s' => if is_space c then skip_space s' else s
  end.

Definition all_space (s : string) : bool :=
  match skip_space s with
  | EmptyString => true
  | String _ _ => false
  end.

(** Where the scanner of the digits stands. *)
Inductive scan_state : Type := AtStart | AfterDigit | AfterUnderscore.

(** The digits of a literal: [digit (["_"] digit)*], then white space
    up to the end of the string. *)
Fixpoint scan (st : scan_state) (s : string) : option uint :=
  match s with
  | EmptyString =>
      match st with
      | AfterDigit => Some Nil
      | _ => None
      end
  | String c s' =>
      match digit_of c with
      | Some D => option_map D (scan AfterDigit s')
      | None =>
          match st with
          | AfterDigit =>
              if Ascii.eqb c "_" then scan AfterUnderscore s'
              else if all_space s then Some Nil else None
          | _ => None
          end
      end
  end.

(** An optional sign, then the digits. *)
Definition literal (s : string) : option Z :=
  match s with
  | String "+" s' => option_map Z.of_uint (scan AtStart s')
  | String "-" s' => option_map (fun d => - Z.of_uint d) (scan AtStart s')
  | _ => option_map Z.of_uint (scan AtStart s)
  end.

(** [int(s)] *)
Definition int (s : string) : result Z :=
  match literal (skip_space s) with
  | Some z => Ok z
  | None => Raise (ValueError_int s)
  end.

(** [str(z)] *)
Definition str (z : Z) : string :=
  NilZero.string_of_int (Z.to_int z).

End PyInt.

(** ** Requests, the file system and the handler's state *)

(** [self.command], [self.path] and [self.headers] of a parsed request. *)
Record request : Type := mkRequest {
  command : string;
  path : string;
  headers : list (string * string)
}.

(** [self.headers.get(name)]: the value of the first field of that name,
    names compared without regard to case. *)
Fixpoint headers_get (hs : list (string * string)) (name : string) : option string :=
  match hs with
  | [] => None
  | (k, v) :: hs' =>
      if String.eqb (PyStr.lower k) (PyStr.lower name) then Some v
      else headers_get hs' name
  end.

(** The three operations of the operating system the handler calls. *)
Record filesystem : Type := mkFilesystem {
  path_exists : string -> bool;            (* os.path.exists *)
  path_getsize : string -> result Z;       (* os.path.getsize *)
  open_rb : string -> result (list byte)   (* open(_, 'rb'): the bytes of the file *)
}.

(** [p] names a regular, readable file whose bytes are [content]. *)
Definition holds_file (fs : filesystem) (p : string) (content : list byte) : Prop :=
  path_exists fs p = true /\
  path_getsize fs p = Ok (Z.of_nat (List.length content)) /\
  open_rb fs p = Ok content.

(** [f.seek(pos)] then [f.read(n)] on a freshly opened binary file:
    seeking past the end is allowed and leaves nothing to read;
    [read(-1)] reads up to the end of the file, [read(n)] with
    [n < -1] raises ValueError, and [read(n)] with [0 <= n] returns at
    most [n] bytes. *)
Definition seek_read (content : list byte) (pos n : Z) : result (list byte) :=
  if pos <? 0 then Raise (OSError "[Errno 22] Invalid argument")
  else
    let rest := skipn (Z.to_nat pos) content in
    if n <? -1 then Raise ValueError_read
    else if n =? -1 then Ok rest
    else Ok (firstn (Z.to_nat n) rest).

(** A line of the header buffer. *)
Inductive line : Type :=
| Status (code : Z) (message : string)
| Field (keyword value : string).

(** What reaches the socket: a flushed header buffer, or body bytes. *)
Inductive chunk : Type :=
| Head (lines : list line)
| Data (bytes : list byte).

Record handler : Type := mkHandler {
  headers_buffer : list line;   (* self._headers_buffer *)
  wfile : list chunk;           (* everything written to self.wfile, in order *)
  opened : list string          (* the paths passed to open() *)
}.

Definition fresh : handler :=
  {| headers_buffer := []; wfile := []; opened := [] |}.

(** Handler methods: state passing with exceptions. *)
Definition M (A : Type) : Type := handler -> result A * handler.

Definition ret {A : Type} (a : A) : M A := fun h => (Ok a, h).

Definition bind {A B : Type} (m : M A) (k : A -> M B) : M B :=
  fun h =>
    match m h with
    | (Ok a, h') => k a h'
    | (Raise e, h') => (Raise e, h')
    end.

Definition lift {A : Type} (r : result A) : M A := fun h => (r, h).

(** [try: body except Exception as e: on_exn(e)] *)
Definition try_except {A : Type} (body : M A) (on_exn : exn -> M A) : M A :=
  fun h =>
    match body h with
    | (Ok a, h') => (Ok a, h')
    | (Raise e, h') => on_exn e h'
    end.

Notation "x <- m ;; k" := (bind m (fun x => k))
  (at level 61, m at next level, right associativity).
Notation "m ;; k" := (bind m (fun _ => k))
  (at level 61, right associativity).

(** What a method of the base classes does, as the calls it makes on
    the handler. *)
Inductive api_call : Type :=
| SendResponse (code : Z) (message : option string)
| SendHeader (keyword value : string)
| EndHeaders
| WriteBody (data : list byte)
| SendError (code : Z) (message explain : option string).

(** The parts of the Python library the handler is built on that are
    not in the repository. *)
Record base_class : Type := mkBase {
  version_string : string;                          (* the Server field *)
  date_time_string : string;                        (* the Date field *)
  responses : Z -> option (string * string);        (* code -> (short, long) *)
  error_page : Z -> string -> string -> list byte;  (* the body of an error response *)
  repr : string -> string;                          (* repr of a str *)
  super_do_GET : request -> filesystem -> list api_call
}.

(** ** The handler *)

Section Handler.

Variable base : base_class.
Variable fs : filesystem.
Variable req : request.

(** [str(e)] *)
Definition str_exn (e : exn) : string :=
  match e with
  | ValueError_int s => "invalid literal for int() with base 10: " ++ repr base s
  | IndexError_list => "list index out of range"
  | ValueError_read => "read length must be non-negative or -1"
  | OSError m => m
  end.

(** *** BaseHTTPRequestHandler *)

Definition send_response_only (code : Z) (message : option string) : M unit :=
  fun h =>
    let m := match message with
             | Some m => m
             | None => match responses base code with
                       | Some (short, _) => short
                       | None => ""
                       end
             end in
    (Ok tt, {| headers_buffer := headers_buffer h ++ [Status code m];
               wfile := wfile h; opened := opened h |}).

Definition send_header (keyword value : string) : M unit :=
  fun h =>
    (Ok tt, {| headers_buffer := headers_buffer h ++ [Field keyword value];
               wfile := wfile h; opened := opened h |}).

Definition send_response (code : Z) (message : option string) : M unit :=
  send_response_only code message ;;
  send_header "Server" (version_string base) ;;
  send_header "Date" (date_time_string base).

(** [super().end_headers()]: the buffer goes to the socket. *)
Definition base_end_headers : M unit :=
  fun h =>
    (Ok tt, {| headers_buffer := [];
               wfile := wfile h ++ [Head (headers_buffer h)];
               opened := opened h |}).

(** [self.wfile.write(data)] *)
Definition wfile_write (data : list byte) : M unit :=
  fun h =>
    (Ok tt, {| headers_buffer := headers_buffer h;
               wfile := wfile h ++ [Data data];
               opened := opened h |}).

(** [open(p, 'rb')] *)
Definition open_ (p : string) : M (list byte) :=
  fun h =>
    (open_rb fs p, {| headers_buffer := headers_buffer h;
                      wfile := wfile h;
                      opened := opened h ++ [p] |}).

(** *** MyHTTPRequestHandler *)

Definition audio_extensions : list string := [".mp3"; ".wav"; ".ogg"].

Definition is_audio (p : string) : bool :=
  PyStr.endswith_any p audio_extensions.

(** ['audio/mpeg' if self.path.endswith('.mp3') else 'audio/wav'] *)
Definition content_type (p : string) : string :=
  if PyStr.endswith p ".mp3" then "audio/mpeg" else "audio/wav".

Definition end_headers : M unit :=
  send_header "Access-Control-Allow-Origin" "*" ;;
  send_header "Access-Control-Allow-Methods" "GET, OPTIONS" ;;
  send_header "Access-Control-Allow-Headers" "*" ;;
  (if is_audio (path req)
   then send_header "Accept-Ranges" "bytes" ;;
        send_header "Content-Type" (content_type (path req))
   else ret tt) ;;
  base_end_headers.

(** [self.send_error(code, message, explain)] of the base class; its
    call of [self.end_headers()] reaches the override above. *)
Definition send_error (code : Z) (message explain : option string) : M unit :=
  let (shortmsg, longmsg) :=
    match responses base code with
    | Some sl => sl
    | None => ("???", "???")
    end in
  let message := match message with Some m => m | None => shortmsg end in
  let explain := match explain with Some x => x | None => longmsg end in
  send_response code (Some message) ;;
  send_header "Connection" "close" ;;
  let has_body :=
    (200 <=? code) && negb ((code =? 204) || (code =? 205) || (code =? 304)) in
  let body := error_page base code message explain in
  (if has_body
   then send_header "Content-Type" "text/html;charset=utf-8" ;;
        send_header "Content-Length" (PyInt.str (Z.of_nat (List.length body)))
   else ret tt) ;;
  end_headers ;;
  if has_body && negb (String.eqb (command req) "HEAD")
     && negb (Nat.eqb (List.length body) 0)
  then wfile_write body
  else ret tt.

(** A method of the base classes run on this handler. *)
Definition run_call (c : api_call) : M unit :=
  match c with
  | SendResponse code message => send_response code message
  | SendHeader k v => send_header k v
  | EndHeaders => end_headers
  | WriteBody data => wfile_write data
  | SendError code message explain => send_error code message explain
  end.

Fixpoint run_calls (cs : list api_call) : M unit :=
  match cs with
  | [] => ret tt
  | c :: cs' => run_call c ;; run_calls cs'
  end.

(** The bounds of the range, lines 42 to 51 of [do_GET]. *)
Definition range_bounds (file_size : Z) (range_header : string) : result (Z * Z) :=
  let byte_start := 0 in
  let byte_end := file_size - 1 in
  if PyStr.contains "bytes=" range_header then
    let ranges := PyStr.split "-" (PyStr.replace "bytes=" "" range_header) in
    r0 <-? index ranges 0 ;
    byte_start <-? (if PyStr.truthy r0 then PyInt.int r0 else Ok byte_start) ;
    r1 <-? index ranges 1 ;
    byte_end <-? (if PyStr.truthy r1 then PyInt.int r1 else Ok byte_end) ;
    Ok (byte_start, byte_end)
  else Ok (byte_start, byte_end).

Definition do_GET : M unit :=
  if is_audio (path req) then
    try_except
      (let filepath := PyStr.lstrip "/" (path req) in
       if negb (path_exists fs filepath) then send_error 404 None None
       else
         file_size <- lift (path_getsize fs filepath) ;;
         match headers_get (headers req) "Range" with
         | Some (String _ _ as range_header) =>
             bounds <- lift (range_bounds file_size range_header) ;;
             let (byte_start, byte_end) := bounds : Z * Z in
             send_response 206 None ;;
             send_header "Content-Type" (content_type (path req)) ;;
             send_header "Content-Length" (PyInt.str (byte_end - byte_start + 1)) ;;
             send_header "Content-Range"
               ("bytes " ++ PyInt.str byte_start ++ "-" ++ PyInt.str byte_end
                  ++ "/" ++ PyInt.str file_size) ;;
             send_header "Accept-Ranges" "bytes" ;;
             end_headers ;;
             f <- open_ filepath ;;
             data <- lift (seek_read f byte_start (byte_end - byte_start + 1)) ;;
             wfile_write data
         | _ =>
             send_response 200 None ;;
             send_header "Content-Type" (content_type (path req)) ;;
             send_header "Content-Length" (PyInt.str file_size) ;;
             send_header "Accept-Ranges" "bytes" ;;
             end_headers ;;
             f <- open_ filepath ;;
             wfile_write f
         end)
      (fun e => send_error 500 (Some (str_exn e)) None)
  else run_calls (super_do_GET base req fs).

End Handler.

(** ** What a client receives *)

Record response : Type := mkResponse {
  status : Z;
  reason : string;
  fields : list (string * string);
  body : list byte
}.

Definition fields_of (ls : list line) : list (string * string) :=
  flat_map (fun l => match l with
                     | Field k v => [(k, v)]
                     | Status _ _ => []
                     end) ls.

(** The body bytes written before the next header block. *)
Fixpoint leading_data (w : list chunk) : list byte :=
  match w with
  | Data b :: w' => b ++ leading_data w'
  | _ => []
  end.

(** The responses on the wire: a header block that starts with a status
    line, and the data written after it. *)
Fixpoint sent (w : list chunk) : list response :=
  match w with
  | [] => []
  | Head (Status c m :: ls) :: w' =>
      {| status := c; reason := m; fields := fields_of ls;
         body := leading_data w' |} :: sent w'
  | _ :: w' => sent w'
  end.

(** The handler after a GET request, and the responses it has sent. *)
Definition after_GET (base : base_class) (fs : filesystem) (req : request) : handler :=
  snd (do_GET base fs req fresh).

Definition reply (base : base_class) (fs : filesystem) (req : request) : list response :=
  sent (wfile (after_GET base fs req)).

(** The file the handler looks for. *)
Definition filepath (req : request) : string :=
  PyStr.lstrip "/" (path req).

(** Bytes [s] to [e], both included, of [content]. *)
Definition bytes_between (content : list byte) (s e : Z) : list byte :=
  firstn (Z.to_nat (e - s + 1)) (skipn (Z.to_nat s) content).

(** The value of the Range field a client sends for bytes [s] to [e]. *)
Definition range_value (s e : Z) : string :=
  "bytes=" ++ PyInt.str s ++ "-" ++ PyInt.str e.

(** The value of the Content-Range field for bytes [s] to [e] of
    [total]. *)
Definition content_range (s e total : Z) : string :=
  "bytes " ++ PyInt.str s ++ "-" ++ PyInt.str e ++ "/" ++ PyInt.str total.

(** The three cross-origin fields. *)
Definition cors (ls : list line) : Prop :=
  In (Field "Access-Control-Allow-Origin" "*") ls /\
  In (Field "Access-Control-Allow-Methods" "GET, OPTIONS") ls /\
  In (Field "Access-Control-Allow-Headers" "*") ls.


(** Whether a relative path, read component by component as the
    operating system does, steps above the directory it starts from. *)
Fixpoint climbs (depth : nat) (components : list string) : bool :=
  match components with
  | [] => false
  | c :: cs =>
      if String.eqb c ".." then
        match depth with
        | O => true
        | S d => climbs d cs
        end
      else if String.eqb c "." || String.eqb c "" then climbs depth cs
      else climbs (S depth) cs
  end.

Definition leaves_root (p : string) : bool :=
  climbs 0 (PyStr.split "/" p).

(** Two file systems that answer alike about [p]. *)
Definition same_at (p : string) (fs1 fs2 : filesystem) : Prop :=
  path_exists fs1 p = path_exists fs2 p /\
  path_getsize fs1 p = path_getsize fs2 p /\
  open_rb fs1 p = open_rb fs2 p.

(** A string of decimal digits. *)
Fixpoint all_digits (s : string) : bool :=
  match s with
  | EmptyString => true
  | String c s' =>
      match PyInt.digit_of c with
      | Some _ => all_digits s'
      | None => false
      end
  end.

(** [range_header.replace('bytes=', '').split('-')] *)
Definition ranges_of (range_header : string) : list string :=
  PyStr.split "-" (PyStr.replace "bytes=" "" range_header).

(** The cross-origin fields on the wire and in a response; a method
    that keeps them on everything it writes. *)
Definition chunk_cors (c : chunk) : Prop :=
  match c with
  | Head ls => cors ls
  | Data _ => True
  end.

Definition carries_cors (r : response) : Prop :=
  In ("Access-Control-Allow-Origin", "*") (fields r) /\
  In ("Access-Control-Allow-Methods", "GET, OPTIONS") (fields r) /\
  In ("Access-Control-Allow-Headers", "*") (fields r).

Definition keeps_cors {A : Type} (m : M A) : Prop :=
  forall h, Forall chunk_cors (wfile h) -> Forall chunk_cors (wfile (snd (m h))).


(** ** Concrete instances *)

Module Demo.

Definition py_responses (code : Z) : option (string * string) :=
  match code with
  | 200 => Some ("OK", "Request fulfilled, document follows")
  | 206 => Some ("Partial Content", "Partial content follows")
  | 404 => Some ("Not Found", "Nothing matches the given URI")
  | 500 => Some ("Internal Server Error", "Server got itself in trouble")
  | _ => None
  end.

Definition base : base_class :=
  {| version_string := "SimpleHTTP/0.6 Python/3.12";
     date_time_string := "Thu, 01 Jan 1970 00:00:00 GMT";
     responses := py_responses;
     error_page := fun _ message _ => list_byte_of_string message;
     repr := fun s => ("'" ++ s ++ "'")%string;
     super_do_GET := fun _ _ => [SendError 404 (Some "File not found") None] |}.

Fixpoint lookup (p : string) (files : list (string * list byte)) : option (list byte) :=
  match files with
  | [] => None
  | (q, c) :: files' => if String.eqb q p then Some c else lookup p files'
  end.

(** A file system that holds the listed regular files and nothing
    else. *)
Definition fs_of (files : list (string * list byte)) : filesystem :=
  {| path_exists := fun p =>
       match lookup p files with Some _ => true | None => false end;
     path_getsize := fun p =>
       match lookup p files with
       | Some c => Ok (Z.of_nat (List.length c))
       | None => Raise (OSError "[Errno 2] No such file or directory")
       end;
     open_rb := fun p =>
       match lookup p files with
       | Some c => Ok c
       | None => Raise (OSError "[Errno 2] No such file or directory")
       end |}.

(** [n] bytes: 0, 1, ..., 255, 0, 1, ... *)
Definition ramp (n : nat) : list byte :=
  map (fun i => byte_of_ascii (ascii_of_nat i)) (seq 0 n).

Definition clip : list byte := ramp 1000.

Definition ten : list byte := ramp 10.

Definition fs : filesystem :=
  fs_of [("clip.mp3", clip); ("ten.mp3", ten); ("../x.mp3", ramp 3)].

Definition get (p : string) (hs : list (string * string)) : request :=
  {| command := "GET"; path := p; headers := hs |}.

(** A range that runs backwards, a file that is not there, and a
    Range field with an empty value. *)
Definition backwards : request := get "/ten.mp3" [("Range", "bytes=5-2")].
Definition no_file : request := get "/nope.mp3" [("Range", "bytes=abc-5")].
Definition empty_range : request := get "/ten.mp3" [("Range", "")].

End Demo.

(** ** Definitions for the further properties *)

(** The status a first response can have. *)
Definition first_status (r : response) : Prop :=
  status r = 404 \/ status r = 500 \/ status r = 200 \/ status r = 206.

(** The value of the Range field for the bytes from [s] on. *)
Definition open_range_value (s : Z) : string :=
  "bytes=" ++ PyInt.str s ++ "-".

(** The two fields [end_headers] adds last for an audio path. *)
Definition audio_lines (p : string) : list line :=
  [Field "Accept-Ranges" "bytes"; Field "Content-Type" (content_type p)].

Definition audio_fields (p : string) : list (string * string) :=
  [("Accept-Ranges", "bytes"); ("Content-Type", content_type p)].

(** A header block, and a response, that ends with them. *)
Definition chunk_audio (p : string) (c : chunk) : Prop :=
  match c with
  | Head ls => exists pre, ls = pre ++ audio_lines p
  | Data _ => True
  end.

Definition ends_audio (p : string) (r : response) : Prop :=
  exists pre, fields r = pre ++ audio_fields p.

Definition keeps_audio (p : string) {A : Type} (m : M A) : Prop :=
  forall h, Forall (chunk_audio p) (wfile h) ->
            Forall (chunk_audio p) (wfile (snd (m h))).

(** A file system with one entry, [album.mp3], that exists and has a
    size but cannot be opened for reading: a directory. *)
Definition dir_fs : filesystem :=
  {| path_exists := fun p => String.eqb p "album.mp3";
     path_getsize := fun p =>
       if String.eqb p "album.mp3" then Ok 4096
       else Raise (OSError "[Errno 2] No such file or directory");
     open_rb := fun p =>
       if String.eqb p "album.mp3"
       then Raise (OSError "[Errno 21] Is a directory")
       else Raise (OSError "[Errno 2] No such file or directory") |}.

(** ** [get-sounds.py] *)

Module GetSounds.

(** The console: the text of each [print] call, in order. *)
Definition console : Type := list string.


(** [s * n] *)
Fixpoint str_mul (s : string) (n : nat) : string :=
  match n with
  | O => EmptyString
  | S n' => (s ++ str_mul s n')%string
  end.

Definition newline : string := String (ascii_of_nat 10) EmptyString.



(** The module-level table: file name and URL ([None] where there is
    none), in the order of the dict. *)
Definition sounds : list (string * option string) :=
  [("menu-music.mp3", None);
   ("battlefield-music.mp3", None);
   ("rifle-shoot.mp3", None);
   ("pistol-shoot.mp3", None);
   ("bullet-shoot.mp3", None)].

Section Download.

(** [urllib.request.urlretrieve] and [str] of an exception. *)
Variable urlretrieve : string -> string -> result unit.
Variable describe : exn -> string.


End Download.

(** [main()], reading the table [sounds]. *)
Definition main (sounds : list (string * option string)) (out : console) : console :=
  out ++
  [str_mul "=" 50;
   "Game Sound Files Setup";
   str_mul "=" 50;
   newline ++ "Since direct downloads are restricted, please:";
   "1. Open generate-sounds.html in your browser";
   "2. Click buttons to generate WAV files";
   "3. Convert WAV to MP3 using an online converter";
   "4. Place MP3 files in the sounds/ directory";
   newline ++ "OR download free sounds from:";
   "- https://freesound.org/";
   "- https://pixabay.com/music/";
   "- https://mixkit.co/free-stock-music/";
   newline ++ "Required files:"]%string ++
  map (fun filename => "  - " ++ filename)%string
    (filter (fun filename => negb (String.eqb filename "battlefield-music.mp3"))
       (map fst sounds)) ++
  [newline ++ str_mul "=" 50]%string.

End GetSounds.

(** ** Proof automation *)

(** Run the handler's methods on an explicit state. *)
Ltac exec :=
  cbv beta iota zeta delta
    [try_except bind lift ret send_response send_response_only send_header
     end_headers base_end_headers wfile_write open_ send_error
     headers_buffer wfile opened fresh snd fst app negb].

Ltac error_cases :=
  repeat match goal with
         | |- context [String.eqb ?a ?b] => destruct (String.eqb a b)
         | |- context [Nat.eqb ?a ?b] => destruct (Nat.eqb a b)
         end;
  cbn [andb orb Z.leb Z.eqb Z.compare Pos.compare Pos.compare_cont Pos.eqb];
  exec.

(** The shape of the outcome of a request, case by case. *)
Ltac shape :=
  simpl; split; [reflexivity|]; split; [auto|];
  first [ left; eexists; split; [reflexivity|]; simpl; auto 6
        | right; do 2 eexists; split; [reflexivity|]; simpl; auto ].

(** ** The primitives on concrete inputs *)

Example int_plain : PyInt.int "200" = Ok 200.
Proof. reflexivity. Qed.

Example int_spaces_sign_underscore : PyInt.int " +1_000 " = Ok 1000.
Proof. reflexivity. Qed.

Example int_bad : PyInt.int "1__0" = Raise (ValueError_int "1__0").
Proof. reflexivity. Qed.

Example int_empty_digits : PyInt.int "+" = Raise (ValueError_int "+").
Proof. reflexivity. Qed.

Example str_neg : PyInt.str (-2) = "-2".
Proof. reflexivity. Qed.

Example str_zero : PyInt.str 0 = "0".
Proof. reflexivity. Qed.

Example split_suffix : PyStr.split "-" "-100" = [""; "100"].
Proof. reflexivity. Qed.

Example replace_twice : PyStr.replace "bytes=" "" "bytes=1bytes=-2" = "1-2".
Proof. reflexivity. Qed.

Example lstrip_slashes : PyStr.lstrip "/" "//a/b.mp3" = "a/b.mp3".
Proof. reflexivity. Qed.

Example endswith_mp3 : PyStr.endswith "/a.mp3" ".mp3" = true.
Proof. reflexivity. Qed.

Example endswith_query : PyStr.endswith "/a.mp3?x" ".mp3" = false.
Proof. reflexivity. Qed.

(** ** Decimal numerals *)

Section Numerals.

Import PyInt.

Lemma digits_of_uint (d : uint) : all_digits (NilEmpty.string_of_uint d) = true.
Proof. induction d; simpl; auto. Qed.

Lemma scan_of_uint (d : uint) :
  scan AfterDigit (NilEmpty.string_of_uint d) = Some d.
Proof. induction d; simpl; rewrite ?IHd; reflexivity. Qed.

Lemma literal_of_uint (d : uint) :
  d <> Nil ->
  literal (skip_space (NilEmpty.string_of_uint d)) = Some (Z.of_uint d).
Proof.
  destruct d; intros Hd; try congruence; simpl;
    rewrite scan_of_uint; reflexivity.
Qed.

Lemma str_nonneg (z : Z) :
  0 <= z ->
  exists d, d <> Nil /\ str z = NilEmpty.string_of_uint d /\ Z.of_uint d = z.
Proof.
  intros Hz. destruct z as [|p|p]; try lia.
  - exists (D0 Nil). repeat split. discriminate.
  - exists (Pos.to_uint p). split; [apply Unsigned.to_uint_nonnil|].
    split.
    + unfold str. simpl. unfold NilZero.string_of_uint.
      generalize (Unsigned.to_uint_nonnil p).
      destruct (Pos.to_uint p); congruence.
    + change (Z.of_int (Z.to_int (Z.pos p)) = Z.pos p). apply DecimalZ.of_to.
Qed.

Lemma int_str (z : Z) : 0 <= z -> int (str z) = Ok z.
Proof.
  intros Hz. destruct (str_nonneg z Hz) as (d & Hd & -> & <-).
  unfold int. rewrite literal_of_uint by assumption. reflexivity.
Qed.

Lemma str_digits (z : Z) : 0 <= z -> all_digits (str z) = true.
Proof.
  intros Hz. destruct (str_nonneg z Hz) as (d & _ & -> & _).
  apply digits_of_uint.
Qed.

Lemma str_truthy (z : Z) : PyStr.truthy (str z) = true.
Proof.
  unfold str. destruct (Z.to_int z) as [d|d]; simpl; [|reflexivity].
  destruct d; reflexivity.
Qed.


End Numerals.

(** ** Strings *)

Section Strings.

Import PyStr.

Lemma mem_append (c : ascii) (a b : string) :
  mem c (a ++ b) = mem c a || mem c b.
Proof.
  induction a as [|x a IH]; simpl; [reflexivity|].
  rewrite IH. apply orb_assoc.
Qed.

Lemma digits_mem (c : ascii) (s : string) :
  PyInt.digit_of c = None -> all_digits s = true -> mem c s = false.
Proof.
  intros Hc. induction s as [|x s IH]; simpl; [reflexivity|].
  destruct (PyInt.digit_of x) eqn:Hx; [|discriminate].
  intros Hs. rewrite (IH Hs), orb_false_r.
  destruct (Ascii.eqb_spec x c); [congruence|reflexivity].
Qed.

Lemma replace_absent (old new : string) (c : ascii) (s : string) :
  startswith (String c EmptyString) old = true ->
  mem c s = false ->
  replace_from old new 0 s = s.
Proof.
  intros Hold. induction s as [|x s IH]; simpl; [reflexivity|].
  intros Hm. apply orb_false_elim in Hm. destruct Hm as [Hx Hs].
  destruct old as [|o old']; [discriminate|].
  simpl in Hold. rewrite andb_true_r in Hold.
  apply Ascii.eqb_eq in Hold. subst o.
  cbn [replace_from startswith]. rewrite Ascii.eqb_sym in Hx. rewrite Hx. cbn [andb].
  rewrite IH by assumption. reflexivity.
Qed.

Lemma split_absent (sep : ascii) (s : string) :
  mem sep s = false -> split sep s = [s].
Proof.
  induction s as [|x s IH]; simpl; [reflexivity|].
  intros Hm. apply orb_false_elim in Hm. destruct Hm as [Hx Hs].
  rewrite Hx, (IH Hs). reflexivity.
Qed.

Lemma split_append (sep : ascii) (a b : string) :
  mem sep a = false ->
  split sep (a ++ String sep b) = a :: split sep b.
Proof.
  induction a as [|x a IH]; simpl.
  - intros _. rewrite Ascii.eqb_refl. reflexivity.
  - intros Hm. apply orb_false_elim in Hm. destruct Hm as [Hx Hs].
    rewrite Hx, (IH Hs). reflexivity.
Qed.




End Strings.

Section Literals.

Import PyInt.




End Literals.

(** ** The bounds of a range *)

Section Bounds.

Lemma range_bounds_default (size : Z) (rh : string) :
  PyStr.contains "bytes=" rh = false ->
  range_bounds size rh = Ok (0, size - 1).
Proof. intros H. unfold range_bounds. rewrite H. reflexivity. Qed.

Lemma ranges_of_value (s e : Z) :
  0 <= s -> 0 <= e ->
  ranges_of (range_value s e) = [PyInt.str s; PyInt.str e].
Proof.
  intros Hs He. unfold ranges_of, range_value, PyStr.replace.
  assert (Hd : forall c, PyInt.digit_of c = None ->
                         PyStr.mem c (PyInt.str s) = false /\
                         PyStr.mem c (PyInt.str e) = false).
  { intros c Hc. split; apply digits_mem; auto using str_digits. }
  cbn [String.append PyStr.replace_from PyStr.startswith Ascii.eqb
       Bool.eqb andb String.length Nat.sub].
  rewrite (replace_absent "bytes=" "" "b").
  - destruct (Hd "-"%char eq_refl) as [Ha Hb].
    rewrite split_append by assumption.
    rewrite split_absent by assumption. reflexivity.
  - reflexivity.
  - destruct (Hd "b"%char eq_refl) as [Ha Hb].
    rewrite mem_append, Ha. simpl. exact Hb.
Qed.

Lemma range_bounds_value (size s e : Z) :
  0 <= s -> 0 <= e ->
  range_bounds size (range_value s e) = Ok (s, e).
Proof.
  intros Hs He. unfold range_bounds.
  replace (PyStr.contains "bytes=" (range_value s e)) with true
    by reflexivity.
  fold (ranges_of (range_value s e)). rewrite ranges_of_value by assumption.
  cbn [index nth_error rbind].
  rewrite !str_truthy, !int_str by assumption. reflexivity.
Qed.



End Bounds.

(** ** Reading a file and the outcomes of a GET *)

Section Reading.

Variable content : list byte.

Lemma seek_read_inside (s e : Z) :
  0 <= s -> s <= e -> e < Z.of_nat (List.length content) ->
  seek_read content s (e - s + 1) = Ok (bytes_between content s e) /\
  Z.of_nat (List.length (bytes_between content s e)) = e - s + 1.
Proof.
  intros Hs Hse He. unfold seek_read, bytes_between.
  destruct (Z.ltb_spec s 0); [lia|].
  destruct (Z.ltb_spec (e - s + 1) (-1)); [lia|].
  destruct (Z.eqb_spec (e - s + 1) (-1)); [lia|].
  split; [reflexivity|].
  rewrite length_firstn, length_skipn. lia.
Qed.


Lemma seek_read_whole :
  seek_read content 0 (Z.of_nat (List.length content) - 1 - 0 + 1) = Ok content.
Proof.
  unfold seek_read.
  destruct (Z.ltb_spec (Z.of_nat (List.length content) - 1 - 0 + 1) (-1)); [lia|].
  destruct (Z.eqb_spec (Z.of_nat (List.length content) - 1 - 0 + 1) (-1)); [lia|].
  simpl. f_equal. apply firstn_all2. lia.
Qed.

Lemma seek_read_prefix (e : Z) :
  0 <= e -> seek_read content 0 (e - 0 + 1) = Ok (firstn (Z.to_nat (e + 1)) content).
Proof.
  intros He. unfold seek_read.
  destruct (Z.ltb_spec (e - 0 + 1) (-1)); [lia|].
  destruct (Z.eqb_spec (e - 0 + 1) (-1)); [lia|].
  simpl. do 2 f_equal. lia.
Qed.

End Reading.

Section Outcomes.

Variable base : base_class.
Variable fs : filesystem.
Variable req : request.

Hypothesis audio : is_audio (path req) = true.

Lemma missing_reply :
  path_exists fs (filepath req) = false ->
  fst (do_GET base fs req fresh) = Ok tt /\
  opened (after_GET base fs req) = [] /\
  exists r, reply base fs req = [r] /\ status r = 404.
Proof.
  intros Hex. unfold reply, after_GET, do_GET, filepath in *.
  rewrite audio. exec. rewrite Hex. exec. rewrite audio.
  destruct (responses base 404) as [[short long]|];
    error_cases; repeat split; eexists; split; reflexivity.
Qed.



Lemma full_reply_gen (size : Z) :
  path_exists fs (filepath req) = true ->
  path_getsize fs (filepath req) = Ok size ->
  (forall c t, headers_get (headers req) "Range" <> Some (String c t)) ->
  exists r rest,
    reply base fs req = r :: rest /\ status r = 200 /\
    In ("Content-Length", PyInt.str size) (fields r) /\
    In ("Accept-Ranges", "bytes") (fields r) /\
    In ("Content-Type", content_type (path req)) (fields r) /\
    Forall (fun x => status x = 500) rest /\
    forall f, open_rb fs (filepath req) = Ok f -> rest = [] /\ body r = f.
Proof.
  intros Hex Hsz Hr.
  unfold reply, after_GET, do_GET, filepath in *.
  rewrite audio. exec. rewrite Hex, Hsz.
  destruct (headers_get (headers req) "Range") as [[|c t]|];
    [|destruct (Hr c t eq_refl)|];
    exec; rewrite audio;
    (destruct (open_rb fs _) as [f|ex]; exec;
     [|destruct (responses base 500) as [[short long]|]; error_cases]);
    (simpl; do 2 eexists; split; [reflexivity|];
     split; [reflexivity|];
     do 3 (split; [simpl; auto 10|]);
     split; [auto|];
     intros f' Hf';
     first [discriminate
           |injection Hf' as <-; split; [reflexivity|apply app_nil_r]]).
Qed.

Lemma partial_reply_gen (size : Z) (rh : string) (s e : Z) :
  path_exists fs (filepath req) = true ->
  path_getsize fs (filepath req) = Ok size ->
  headers_get (headers req) "Range" = Some rh ->
  PyStr.truthy rh = true ->
  range_bounds size rh = Ok (s, e) ->
  exists r rest,
    reply base fs req = r :: rest /\ status r = 206 /\
    In ("Content-Length", PyInt.str (e - s + 1)) (fields r) /\
    In ("Content-Range", content_range s e size) (fields r) /\
    Forall (fun x => status x = 500) rest /\
    forall f, open_rb fs (filepath req) = Ok f ->
      body r = match seek_read f s (e - s + 1) with
               | Ok data => data
               | Raise _ => []
               end /\
      (forall data, seek_read f s (e - s + 1) = Ok data -> rest = []).
Proof.
  intros Hex Hsz Hr Ht Hb.
  unfold reply, after_GET, do_GET, filepath in *.
  rewrite audio. exec. rewrite Hex, Hsz, Hr.
  destruct rh as [|c rh']; [discriminate|].
  exec. rewrite Hb. exec. rewrite audio.
  destruct (open_rb fs _) as [f|ex]; exec;
    [destruct (seek_read f s (e - s + 1)) as [data|ex'] eqn:Hread; exec|];
    try (destruct (responses base 500) as [[short long]|]; error_cases);
    (simpl; do 2 eexists; split; [reflexivity|];
     split; [reflexivity|];
     do 2 (split; [unfold content_range; simpl; auto 10|]);
     split; [auto|];
     intros f' Hf';
     first [discriminate
           |injection Hf' as <-; rewrite Hread; split;
            [reflexivity || apply app_nil_r
            |intros d Hd; reflexivity || discriminate]]).
Qed.

Lemma full_reply (content : list byte) :
  holds_file fs (filepath req) content ->
  headers_get (headers req) "Range" = None ->
  exists r,
    reply base fs req = [r] /\ status r = 200 /\ body r = content /\
    In ("Content-Length", PyInt.str (Z.of_nat (List.length content))) (fields r) /\
    In ("Accept-Ranges", "bytes") (fields r) /\
    In ("Content-Type", content_type (path req)) (fields r).
Proof.
  intros (Hex & Hsz & Hop) Hr.
  destruct (full_reply_gen _ Hex Hsz)
    as (r & rest & Hrep & Hst & Hcl & Har & Hct & _ & Hok).
  { intros c t. rewrite Hr. discriminate. }
  destruct (Hok _ Hop) as [-> Hbody].
  exists r. auto 10.
Qed.

Lemma partial_reply (content : list byte) (rh : string) (s e : Z) (data : list byte) :
  holds_file fs (filepath req) content ->
  headers_get (headers req) "Range" = Some rh ->
  PyStr.truthy rh = true ->
  range_bounds (Z.of_nat (List.length content)) rh = Ok (s, e) ->
  seek_read content s (e - s + 1) = Ok data ->
  exists r,
    reply base fs req = [r] /\ status r = 206 /\ body r = data /\
    In ("Content-Length", PyInt.str (e - s + 1)) (fields r) /\
    In ("Content-Range",
        content_range s e (Z.of_nat (List.length content))) (fields r).
Proof.
  intros (Hex & Hsz & Hop) Hr Ht Hb Hread.
  destruct (partial_reply_gen _ _ _ _ Hex Hsz Hr Ht Hb)
    as (r & rest & Hrep & Hst & Hcl & Hcr & _ & Hok).
  destruct (Hok _ Hop) as [Hbody Hrest].
  rewrite (Hrest _ Hread) in Hrep. rewrite Hread in Hbody.
  exists r. auto 10.
Qed.

End Outcomes.

(** ** The cross-origin fields *)

Section Cors.

Variable base : base_class.
Variable req : request.

Lemma keeps_ret {A : Type} (a : A) : keeps_cors (ret a).
Proof. intros h H. exact H. Qed.

Lemma keeps_lift {A : Type} (r : result A) : keeps_cors (lift r).
Proof. intros h H. exact H. Qed.

Lemma keeps_bind {A B : Type} (m : M A) (k : A -> M B) :
  keeps_cors m -> (forall a, keeps_cors (k a)) -> keeps_cors (bind m k).
Proof.
  intros Hm Hk h H. unfold bind. specialize (Hm h H).
  destruct (m h) as [[a|e] h']; simpl in *; [apply Hk|]; assumption.
Qed.

Lemma keeps_try {A : Type} (m : M A) (k : exn -> M A) :
  keeps_cors m -> (forall e, keeps_cors (k e)) -> keeps_cors (try_except m k).
Proof.
  intros Hm Hk h H. unfold try_except. specialize (Hm h H).
  destruct (m h) as [[a|e] h']; simpl in *; [|apply Hk]; assumption.
Qed.

Lemma keeps_send_header (k v : string) : keeps_cors (send_header k v).
Proof. intros h H. exact H. Qed.

Lemma keeps_send_response (code : Z) (m : option string) :
  keeps_cors (send_response base code m).
Proof. intros h H. exact H. Qed.

Lemma keeps_wfile_write (data : list byte) : keeps_cors (wfile_write data).
Proof.
  intros h H. simpl. apply Forall_app. split; [exact H|].
  constructor; [exact I|constructor].
Qed.

Lemma keeps_open (fs : filesystem) (p : string) : keeps_cors (open_ fs p).
Proof. intros h H. exact H. Qed.

Lemma keeps_end_headers : keeps_cors (end_headers req).
Proof.
  intros h H. unfold end_headers.
  destruct (is_audio (path req)); exec;
    (apply Forall_app; split; [exact H|]);
    (constructor; [|constructor]);
    unfold chunk_cors, cors; rewrite !in_app_iff; simpl; tauto.
Qed.

Lemma keeps_send_error (code : Z) (m x : option string) :
  keeps_cors (send_error base req code m x).
Proof.
  unfold send_error.
  destruct (match responses base code with Some sl => sl | None => _ end)
    as [short long].
  repeat first
    [ apply keeps_send_response
    | apply keeps_send_header
    | apply keeps_end_headers
    | apply keeps_wfile_write
    | apply keeps_ret
    | match goal with |- keeps_cors (if ?b then _ else _) => destruct b end
    | apply keeps_bind; [|intros ?] ].
Qed.

Lemma keeps_run_calls (cs : list api_call) : keeps_cors (run_calls base req cs).
Proof.
  induction cs as [|c cs IH]; simpl; [apply keeps_ret|].
  apply keeps_bind; [|intros _; exact IH].
  destruct c; simpl;
    auto using keeps_send_response, keeps_send_header, keeps_end_headers,
               keeps_wfile_write, keeps_send_error.
Qed.

Lemma keeps_do_GET (fs : filesystem) : keeps_cors (do_GET base fs req).
Proof.
  unfold do_GET.
  destruct (is_audio (path req)); [|apply keeps_run_calls].
  apply keeps_try; [|intros e; apply keeps_send_error].
  cbv zeta.
  destruct (negb _); [apply keeps_send_error|].
  apply keeps_bind; [apply keeps_lift|intros size].
  destruct (headers_get (headers req) "Range") as [[|c rh]|];
    repeat match goal with
           | |- keeps_cors (bind _ _) => apply keeps_bind; [|intros ?]
           | |- keeps_cors (lift _) => apply keeps_lift
           | |- keeps_cors (send_response _ _ _) => apply keeps_send_response
           | |- keeps_cors (send_header _ _) => apply keeps_send_header
           | |- keeps_cors (end_headers _) => apply keeps_end_headers
           | |- keeps_cors (wfile_write _) => apply keeps_wfile_write
           | |- keeps_cors (open_ _ _) => apply keeps_open
           | |- keeps_cors (let (_, _) := ?p in _) => destruct p
           end.
Qed.

Lemma fields_of_field (k v : string) (ls : list line) :
  In (Field k v) ls -> In (k, v) (fields_of ls).
Proof.
  intros H. unfold fields_of. apply in_flat_map.
  exists (Field k v). split; [exact H|]. left. reflexivity.
Qed.

Lemma sent_cors (w : list chunk) :
  Forall chunk_cors w -> Forall carries_cors (sent w).
Proof.
  induction 1 as [|c w Hc Hw IH]; simpl; [constructor|].
  destruct c as [[|[code m|k v] ls]|data]; auto.
  constructor; [|exact IH].
  destruct Hc as (H1 & H2 & H3).
  repeat split; simpl; apply fields_of_field;
    match goal with H : In _ (Status _ _ :: _) |- _ =>
      destruct H as [H|H]; [discriminate|exact H] end.
Qed.

End Cors.

Section Agreement.

Variable base : base_class.
Variable req : request.

Lemma do_GET_same_at (fs1 fs2 : filesystem) (h : handler) :
  is_audio (path req) = true ->
  same_at (filepath req) fs1 fs2 ->
  do_GET base fs1 req h = do_GET base fs2 req h.
Proof.
  intros Ha (H1 & H2 & H3). unfold do_GET, filepath in *.
  rewrite Ha. unfold open_. rewrite H1, H2, H3. reflexivity.
Qed.

Lemma lstrip_slashes_spec (p : string) :
  exists n, p = (string_of_list_ascii (repeat "/"%char n) ++ PyStr.lstrip "/" p)%string /\
            PyStr.startswith "/" (PyStr.lstrip "/" p) = false.
Proof.
  induction p as [|c p IH].
  - exists 0%nat. split; reflexivity.
  - cbn [PyStr.lstrip PyStr.mem]. rewrite orb_false_r.
    destruct (Ascii.eqb_spec "/" c) as [<-|Hc].
    + destruct IH as (n & Hn & Hs). exists (S n). split; [|exact Hs].
      cbn [repeat string_of_list_ascii String.append]. f_equal. exact Hn.
    + exists 0%nat. split; [reflexivity|].
      cbn [PyStr.startswith].
      destruct (Ascii.eqb_spec "/" c); [contradiction|reflexivity].
Qed.

End Agreement.

(** ** The claims of the specification *)

(** C1.  For a file present on disk and bounds [s <= e < size], a GET
    for an audio path with [Range: bytes=s-e] is answered by one
    response: status 206, a body of exactly [e - s + 1] bytes, the
    bytes [s] to [e] of the file, [Content-Length: e-s+1] and
    [Content-Range: bytes s-e/size]. *)
Theorem range_request_partial_content
    (base : base_class) (fs : filesystem) (req : request)
    (content : list byte) (s e : Z) :
  is_audio (path req) = true ->
  holds_file fs (filepath req) content ->
  headers_get (headers req) "Range" = Some (range_value s e) ->
  0 <= s -> s <= e -> e < Z.of_nat (List.length content) ->
  exists r,
    reply base fs req = [r] /\ status r = 206 /\
    body r = bytes_between content s e /\
    Z.of_nat (List.length (body r)) = e - s + 1 /\
    In ("Content-Length", PyInt.str (e - s + 1)) (fields r) /\
    In ("Content-Range",
        content_range s e (Z.of_nat (List.length content))) (fields r).
Proof.
  intros Ha Hfile Hr Hs Hse He.
  destruct (seek_read_inside content s e Hs Hse He) as [Hread Hlen].
  destruct (partial_reply base fs req Ha content (range_value s e) s e _
              Hfile Hr eq_refl (range_bounds_value _ s e Hs ltac:(lia)) Hread)
    as (r & Hrep & Hst & Hbody & Hcl & Hcr).
  exists r. rewrite Hbody. auto 10.
Qed.

Lemma range_request_partial_content_witness :
  exists r,
    reply Demo.base Demo.fs
      (Demo.get "/clip.mp3" [("Range", "bytes=200-299")]) = [r] /\
    status r = 206 /\
    body r = bytes_between Demo.clip 200 299 /\
    Z.of_nat (List.length (body r)) = 299 - 200 + 1 /\
    In ("Content-Length", PyInt.str (299 - 200 + 1)) (fields r) /\
    In ("Content-Range",
        content_range 200 299 (Z.of_nat (List.length Demo.clip))) (fields r).
Proof.
  apply (range_request_partial_content Demo.base Demo.fs
           (Demo.get "/clip.mp3" [("Range", "bytes=200-299")])
           Demo.clip 200 299).
  - reflexivity.
  - repeat split; reflexivity.
  - reflexivity.
  - lia.
  - lia.
  - vm_compute. reflexivity.
Defined.




(** C3.  On an existing audio file of [N] bytes, [Range: bytes=-100] is
    read as start 0 and end 100: one 206 response with
    [Content-Range: bytes 0-100/N] whose body is the bytes 0 to 100 of
    the file (its first 101 bytes), not its last 100. *)
Theorem empty_start_reads_from_zero
    (base : base_class) (fs : filesystem) (req : request)
    (content : list byte) :
  is_audio (path req) = true ->
  holds_file fs (filepath req) content ->
  headers_get (headers req) "Range" = Some "bytes=-100" ->
  range_bounds (Z.of_nat (List.length content)) "bytes=-100" = Ok (0, 100) /\
  exists r,
    reply base fs req = [r] /\ status r = 206 /\
    body r = firstn 101 content /\
    In ("Content-Range",
        content_range 0 100 (Z.of_nat (List.length content))) (fields r).
Proof.
  intros Ha Hfile Hr. split; [reflexivity|].
  destruct (partial_reply base fs req Ha content "bytes=-100" 0 100
              (firstn 101 content) Hfile Hr eq_refl eq_refl
              (seek_read_prefix content 100 ltac:(lia)))
    as (r & Hrep & Hst & Hbody & _ & Hcr).
  exists r. auto.
Qed.

Lemma empty_start_reads_from_zero_witness :
  range_bounds (Z.of_nat (List.length Demo.clip)) "bytes=-100" = Ok (0, 100) /\
  exists r,
    reply Demo.base Demo.fs
      (Demo.get "/clip.mp3" [("Range", "bytes=-100")]) = [r] /\
    status r = 206 /\
    body r = firstn 101 Demo.clip /\
    In ("Content-Range",
        content_range 0 100 (Z.of_nat (List.length Demo.clip))) (fields r).
Proof.
  apply (empty_start_reads_from_zero Demo.base Demo.fs
           (Demo.get "/clip.mp3" [("Range", "bytes=-100")]) Demo.clip).
  - reflexivity.
  - repeat split; reflexivity.
  - reflexivity.
Defined.

(** C4.  On an existing audio file, a GET without a Range field is
    answered by one response: status 200, the whole file as body,
    [Content-Length] equal to the size of the file, and
    [Accept-Ranges: bytes]. *)
Theorem no_range_full_content
    (base : base_class) (fs : filesystem) (req : request)
    (content : list byte) :
  is_audio (path req) = true ->
  holds_file fs (filepath req) content ->
  headers_get (headers req) "Range" = None ->
  exists r,
    reply base fs req = [r] /\ status r = 200 /\ body r = content /\
    In ("Content-Length", PyInt.str (Z.of_nat (List.length content)))
       (fields r) /\
    In ("Accept-Ranges", "bytes") (fields r).
Proof.
  intros Ha Hfile Hr.
  destruct (full_reply base fs req Ha content Hfile Hr)
    as (r & Hrep & Hst & Hbody & Hcl & Har & _).
  exists r. auto.
Qed.

Lemma no_range_full_content_witness :
  exists r,
    reply Demo.base Demo.fs (Demo.get "/clip.mp3" []) = [r] /\
    status r = 200 /\ body r = Demo.clip /\
    In ("Content-Length", PyInt.str (Z.of_nat (List.length Demo.clip)))
       (fields r) /\
    In ("Accept-Ranges", "bytes") (fields r).
Proof.
  apply (no_range_full_content Demo.base Demo.fs (Demo.get "/clip.mp3" [])
           Demo.clip).
  - reflexivity.
  - repeat split; reflexivity.
  - reflexivity.
Defined.

(** C5.  When the file an audio path resolves to does not exist, the
    handler returns after one response of status 404, whatever the
    request's header fields are, and opens no file. *)
Theorem missing_file_404
    (base : base_class) (fs : filesystem) (req : request) :
  is_audio (path req) = true ->
  path_exists fs (filepath req) = false ->
  fst (do_GET base fs req fresh) = Ok tt /\
  opened (after_GET base fs req) = [] /\
  exists r, reply base fs req = [r] /\ status r = 404.
Proof. intros Ha Hex. exact (missing_reply base fs req Ha Hex). Qed.

Lemma missing_file_404_witness :
  fst (do_GET Demo.base Demo.fs Demo.no_file fresh) = Ok tt /\
  opened (after_GET Demo.base Demo.fs Demo.no_file) = [] /\
  exists r, reply Demo.base Demo.fs Demo.no_file = [r] /\ status r = 404.
Proof.
  apply (missing_file_404 Demo.base Demo.fs Demo.no_file); reflexivity.
Defined.




(** C7.  Every response the handler sends carries the three
    cross-origin fields: the responses of [do_GET], whatever the path,
    the header fields and the state of the file system (404 and 500
    included), and the responses of any method of the base classes run
    on this handler. *)
Theorem cors_on_every_response
    (base : base_class) (fs : filesystem) (req : request) :
  Forall carries_cors (reply base fs req) /\
  Forall chunk_cors (wfile (after_GET base fs req)) /\
  forall calls : list api_call,
    Forall carries_cors (sent (wfile (snd (run_calls base req calls fresh)))).
Proof.
  assert (H0 : Forall chunk_cors (wfile fresh)) by constructor.
  split; [|split].
  - apply sent_cors. apply (keeps_do_GET base req fs fresh H0).
  - apply (keeps_do_GET base req fs fresh H0).
  - intros calls. apply sent_cors.
    apply (keeps_run_calls base req calls fresh H0).
Qed.

(** C8, as amended.  On an existing audio file, a Range field with a
    non-empty value that does not contain [bytes=] is not rejected: the
    answer is one 206 response with the bounds 0 and [size - 1], the
    whole file as body, and [Content-Range: bytes 0-(size-1)/size]. *)
Theorem range_without_unit_serves_all
    (base : base_class) (fs : filesystem) (req : request)
    (content : list byte) (rh : string) :
  is_audio (path req) = true ->
  holds_file fs (filepath req) content ->
  headers_get (headers req) "Range" = Some rh ->
  PyStr.truthy rh = true ->
  PyStr.contains "bytes=" rh = false ->
  exists r,
    reply base fs req = [r] /\ status r = 206 /\ body r = content /\
    In ("Content-Length", PyInt.str (Z.of_nat (List.length content)))
       (fields r) /\
    In ("Content-Range",
        content_range 0 (Z.of_nat (List.length content) - 1)
          (Z.of_nat (List.length content))) (fields r).
Proof.
  intros Ha Hfile Hr Ht Hc.
  destruct (partial_reply base fs req Ha content rh 0
              (Z.of_nat (List.length content) - 1) content Hfile Hr Ht
              (range_bounds_default _ rh Hc) (seek_read_whole content))
    as (r & Hrep & Hst & Hbody & Hcl & Hcr).
  exists r.
  replace (Z.of_nat (List.length content) - 1 - 0 + 1)
    with (Z.of_nat (List.length content)) in Hcl by lia.
  auto 10.
Qed.

Lemma range_without_unit_serves_all_witness :
  exists r,
    reply Demo.base Demo.fs (Demo.get "/ten.mp3" [("Range", "items=2-3")])
      = [r] /\
    status r = 206 /\ body r = Demo.ten /\
    In ("Content-Length", PyInt.str (Z.of_nat (List.length Demo.ten)))
       (fields r) /\
    In ("Content-Range",
        content_range 0 (Z.of_nat (List.length Demo.ten) - 1)
          (Z.of_nat (List.length Demo.ten))) (fields r).
Proof.
  apply (range_without_unit_serves_all Demo.base Demo.fs
           (Demo.get "/ten.mp3" [("Range", "items=2-3")]) Demo.ten
           "items=2-3").
  - reflexivity.
  - repeat split; reflexivity.
  - reflexivity.
  - reflexivity.
  - reflexivity.
Defined.

(** C8 as stated fails: a Range field that is present with an empty
    value does not contain [bytes=], and the answer is 200, not 206. *)
Lemma empty_range_value_200 :
  is_audio (path Demo.empty_range) = true /\
  holds_file Demo.fs (filepath Demo.empty_range) Demo.ten /\
  headers_get (headers Demo.empty_range) "Range" = Some "" /\
  PyStr.contains "bytes=" "" = false /\
  map status (reply Demo.base Demo.fs Demo.empty_range) = [200] /\
  ~ exists r, In r (reply Demo.base Demo.fs Demo.empty_range) /\ status r = 206.
Proof.
  repeat split; try reflexivity.
  intros (r & Hin & Hst).
  apply (in_map status) in Hin.
  change (map status (reply Demo.base Demo.fs Demo.empty_range)) with [200] in Hin.
  destruct Hin as [Hin|[]]. lia.
Qed.



(** C10.  For an audio path the handler looks at one file only, the
    one named by the request path without its leading ['/'] characters;
    the rest of the path is kept as it is, [".."] components included,
    so that [/../x.mp3] is answered with the file [../x.mp3], outside
    the directory the server runs in. *)
Theorem served_file_is_stripped_path
    (base : base_class) (req : request) :
  is_audio (path req) = true ->
  (exists n,
     path req = (string_of_list_ascii (repeat "/"%char n) ++ filepath req)%string /\
     PyStr.startswith "/" (filepath req) = false) /\
  (forall fs1 fs2,
     same_at (filepath req) fs1 fs2 ->
     do_GET base fs1 req fresh = do_GET base fs2 req fresh) /\
  (forall fs content,
     holds_file fs (filepath req) content ->
     headers_get (headers req) "Range" = None ->
     exists r, reply base fs req = [r] /\ status r = 200 /\ body r = content) /\
  filepath (Demo.get "/../x.mp3" []) = "../x.mp3" /\
  leaves_root (filepath (Demo.get "/../x.mp3" [])) = true /\
  map body (reply Demo.base Demo.fs (Demo.get "/../x.mp3" [])) = [Demo.ramp 3].
Proof.
  intros Ha. split; [apply lstrip_slashes_spec|].
  split; [intros fs1 fs2 Hs; apply do_GET_same_at; assumption|].
  split; [|repeat split; reflexivity].
  intros fs content Hfile Hr.
  destruct (full_reply base fs req Ha content Hfile Hr)
    as (r & Hrep & Hst & Hbody & _).
  exists r. auto.
Qed.

Lemma served_file_is_stripped_path_witness :
  (exists n,
     path (Demo.get "//a/../../x.mp3" []) =
       (string_of_list_ascii (repeat "/"%char n)
          ++ filepath (Demo.get "//a/../../x.mp3" []))%string /\
     PyStr.startswith "/" (filepath (Demo.get "//a/../../x.mp3" [])) = false) /\
  (forall fs1 fs2,
     same_at (filepath (Demo.get "//a/../../x.mp3" [])) fs1 fs2 ->
     do_GET Demo.base fs1 (Demo.get "//a/../../x.mp3" []) fresh =
     do_GET Demo.base fs2 (Demo.get "//a/../../x.mp3" []) fresh) /\
  (forall fs content,
     holds_file fs (filepath (Demo.get "//a/../../x.mp3" [])) content ->
     headers_get (headers (Demo.get "//a/../../x.mp3" [])) "Range" = None ->
     exists r, reply Demo.base fs (Demo.get "//a/../../x.mp3" []) = [r] /\
               status r = 200 /\ body r = content) /\
  filepath (Demo.get "/../x.mp3" []) = "../x.mp3" /\
  leaves_root (filepath (Demo.get "/../x.mp3" [])) = true /\
  map body (reply Demo.base Demo.fs (Demo.get "/../x.mp3" [])) = [Demo.ramp 3].
Proof.
  apply (served_file_is_stripped_path Demo.base
           (Demo.get "//a/../../x.mp3" [])).
  reflexivity.
Defined.

(** * Further properties *)

(** ** Suffixes *)

Section Suffixes.

Import PyStr.

Lemma length_app_string (a b : string) :
  String.length (a ++ b) = (String.length a + String.length b)%nat.
Proof. induction a as [|c a IH]; simpl; [reflexivity|]. now rewrite IH. Qed.

Lemma substring_whole (s : string) :
  substring 0 (String.length s) s = s.
Proof. induction s as [|c s IH]; simpl; [reflexivity|]. now rewrite IH. Qed.

Lemma substring_skip (x s : string) (m : nat) :
  substring (String.length x) m (x ++ s) = substring 0 m s.
Proof. induction x as [|c x IH]; simpl; [reflexivity|]. exact IH. Qed.

Lemma substring_split (s : string) (k : nat) :
  (k <= String.length s)%nat ->
  s = (substring 0 k s ++ substring k (String.length s - k) s)%string.
Proof.
  revert k. induction s as [|c s IH]; intros k Hk.
  - destruct k; reflexivity.
  - destruct k as [|k].
    + cbn [substring String.append]. simpl String.length.
      rewrite Nat.sub_0_r. cbn [substring]. now rewrite substring_whole.
    + simpl in Hk. cbn [substring String.append String.length Nat.sub].
      f_equal. apply IH. lia.
Qed.

Lemma endswith_append (x suf : string) : endswith (x ++ suf) suf = true.
Proof.
  unfold endswith. rewrite length_app_string.
  replace (String.length x + String.length suf - String.length suf)%nat
    with (String.length x) by lia.
  rewrite substring_skip, substring_whole, String.eqb_refl.
  rewrite andb_true_r. apply Nat.leb_le. lia.
Qed.

Lemma endswith_inv (s suf : string) :
  endswith s suf = true -> exists x, s = (x ++ suf)%string.
Proof.
  unfold endswith. intros H. apply andb_prop in H. destruct H as [Hle He].
  apply Nat.leb_le in Hle. apply String.eqb_eq in He.
  exists (substring 0 (String.length s - String.length suf) s).
  pose proof (substring_split s (String.length s - String.length suf)
                ltac:(lia)) as Hs.
  replace (String.length s - (String.length s - String.length suf))%nat
    with (String.length suf) in Hs by lia.
  rewrite He in Hs. exact Hs.
Qed.

Lemma endswith_cons (c : ascii) (s suf : string) :
  (String.length suf <= String.length s)%nat ->
  endswith (String c s) suf = endswith s suf.
Proof.
  intros Hlen.
  destruct (endswith s suf) eqn:E.
  - apply endswith_inv in E. destruct E as (x & ->).
    apply (endswith_append (String c x) suf).
  - destruct (endswith (String c s) suf) eqn:E'; [|reflexivity].
    apply endswith_inv in E'. destruct E' as ([|d x] & Hx).
    + simpl in Hx. subst suf. simpl in Hlen. lia.
    + simpl in Hx. injection Hx as _ ->.
      rewrite endswith_append in E. discriminate.
Qed.

Lemma endswith_same_length (s a b : string) :
  String.length a = String.length b ->
  endswith s a = true -> endswith s b = true -> a = b.
Proof.
  unfold endswith. intros Hl Ha Hb.
  apply andb_prop in Ha. apply andb_prop in Hb.
  destruct Ha as [_ Ha]. destruct Hb as [_ Hb].
  apply String.eqb_eq in Ha. apply String.eqb_eq in Hb.
  rewrite <- Ha, <- Hb, Hl. reflexivity.
Qed.

Lemma endswith_length (s suf : string) :
  endswith s suf = true -> (String.length suf <= String.length s)%nat.
Proof.
  unfold endswith. intros H. apply andb_prop in H.
  apply Nat.leb_le. apply H.
Qed.

End Suffixes.

Section AudioPaths.

Lemma is_audio_inv (p : string) :
  is_audio p = true ->
  PyStr.endswith p ".mp3" = true \/ PyStr.endswith p ".wav" = true \/
  PyStr.endswith p ".ogg" = true.
Proof.
  unfold is_audio, PyStr.endswith_any, audio_extensions. cbn [existsb].
  rewrite orb_false_r. intros H.
  apply orb_prop in H. destruct H as [H|H]; [auto|].
  apply orb_prop in H. tauto.
Qed.

Lemma is_audio_length (p : string) :
  is_audio p = true -> (4 <= String.length p)%nat.
Proof.
  intros H. destruct (is_audio_inv p H) as [E|[E|E]];
    apply endswith_length in E; exact E.
Qed.

Lemma is_audio_cons (c : ascii) (p : string) :
  is_audio p = true -> is_audio (String c p) = true.
Proof.
  intros H. pose proof (is_audio_length p H) as Hl.
  unfold is_audio, PyStr.endswith_any, audio_extensions in *.
  cbn [existsb] in *.
  rewrite !endswith_cons by exact Hl. exact H.
Qed.

Lemma content_type_cons (c : ascii) (p : string) :
  is_audio p = true -> content_type (String c p) = content_type p.
Proof.
  intros H. unfold content_type.
  rewrite endswith_cons by exact (is_audio_length p H). reflexivity.
Qed.

End AudioPaths.

Section LeadingSlash.

Variable base : base_class.
Variable fs : filesystem.
Variables (c : string) (p : string) (hs : list (string * string)).

Hypothesis audio : is_audio p = true.

Lemma end_headers_slash :
  end_headers (mkRequest c (String "/" p) hs) = end_headers (mkRequest c p hs).
Proof.
  unfold end_headers. cbn [path].
  rewrite (is_audio_cons "/" p audio), (content_type_cons "/" p audio), audio.
  reflexivity.
Qed.

Lemma send_error_slash :
  send_error base (mkRequest c (String "/" p) hs) =
  send_error base (mkRequest c p hs).
Proof. unfold send_error. rewrite end_headers_slash. reflexivity. Qed.

Lemma do_GET_slash :
  do_GET base fs (mkRequest c (String "/" p) hs) =
  do_GET base fs (mkRequest c p hs).
Proof.
  unfold do_GET. cbn [path headers].
  rewrite (is_audio_cons "/" p audio), audio.
  rewrite send_error_slash, end_headers_slash, (content_type_cons "/" p audio).
  cbn [PyStr.lstrip PyStr.mem Ascii.eqb Bool.eqb orb].
  reflexivity.
Qed.

End LeadingSlash.

(** X11.  Extra leading slashes in the path of an audio request change
    nothing: the handler does on [///p] all it does on [p], whatever
    the file system holds. *)
Theorem leading_slashes_do_not_matter
    (base : base_class) (fs : filesystem)
    (c p : string) (hs : list (string * string)) (n : nat) :
  is_audio p = true ->
  do_GET base fs
    (mkRequest c (string_of_list_ascii (repeat "/"%char n) ++ p) hs) =
  do_GET base fs (mkRequest c p hs).
Proof.
  intros Ha. induction n as [|n IH]; [reflexivity|].
  cbn [repeat string_of_list_ascii String.append].
  rewrite do_GET_slash; [exact IH|].
  clear IH. induction n as [|n IH]; [exact Ha|].
  cbn [repeat string_of_list_ascii String.append].
  apply is_audio_cons, IH.
Qed.

Section Shape.

Variable base : base_class.
Variable fs : filesystem.
Variable req : request.

Hypothesis audio : is_audio (path req) = true.

Lemma audio_outcome :
  fst (do_GET base fs req fresh) = Ok tt /\
  (opened (after_GET base fs req) = [] \/
   opened (after_GET base fs req) = [filepath req]) /\
  ((exists r, reply base fs req = [r] /\ first_status r) \/
   (exists r r', reply base fs req = [r; r'] /\
                 (status r = 200 \/ status r = 206) /\ status r' = 500)).
Proof.
  unfold reply, after_GET, do_GET, filepath, first_status.
  rewrite audio. exec.
  destruct (path_exists fs _); exec; rewrite ?audio.
  2:{ destruct (responses base 404) as [[short long]|]; error_cases;
      shape. }
  destruct (path_getsize fs _) as [total|ex]; exec; rewrite ?audio.
  2:{ destruct (responses base 500) as [[short long]|]; error_cases;
      shape. }
  destruct (headers_get (headers req) "Range") as [[|c rh]|]; exec;
    rewrite ?audio.
  2:{ destruct (range_bounds total (String c rh)) as [[s e]|ex]; exec;
        rewrite ?audio.
      2:{ destruct (responses base 500) as [[short long]|]; error_cases;
          shape. }
      destruct (open_rb fs _) as [f|ex]; exec.
      2:{ destruct (responses base 500) as [[short long]|]; error_cases;
          shape. }
      destruct (seek_read f s (e - s + 1)) as [data|ex]; exec.
      2:{ destruct (responses base 500) as [[short long]|]; error_cases;
          shape. }
      shape. }
  all: destruct (open_rb fs _) as [f|ex]; exec;
    [|destruct (responses base 500) as [[short long]|]; error_cases];
    shape.
Qed.

End Shape.

(** ** More on the text of a Range field *)

Section RangeText.

Import PyStr.

Lemma append_assoc (a b c : string) :
  ((a ++ b) ++ c = a ++ (b ++ c))%string.
Proof. induction a as [|x a IH]; simpl; [reflexivity|]. now rewrite IH. Qed.

Lemma replace_prefix_absent (old new : string) (c : ascii) (x y : string) :
  startswith (String c EmptyString) old = true ->
  mem c x = false ->
  replace_from old new 0 (x ++ y) = (x ++ replace_from old new 0 y)%string.
Proof.
  intros Hold. induction x as [|a x IH]; [reflexivity|].
  intros Hm. cbn [mem] in Hm. apply orb_false_elim in Hm.
  destruct Hm as [Ha Hx].
  destruct old as [|o old']; [discriminate|].
  simpl in Hold. rewrite andb_true_r in Hold.
  apply Ascii.eqb_eq in Hold. subst o.
  cbn [String.append replace_from startswith].
  rewrite Ascii.eqb_sym in Ha. rewrite Ha. cbn [andb].
  rewrite IH by assumption. reflexivity.
Qed.


Lemma digits_no (c : ascii) (z : Z) :
  PyInt.digit_of c = None -> 0 <= z -> mem c (PyInt.str z) = false.
Proof. intros Hc Hz. apply digits_mem; auto using str_digits. Qed.

(** The text of a Range field once ['bytes='] is taken out, when it
    starts with [bytes=s-e] followed by a character that is not part of
    a number. *)
Lemma replace_range_value (s e : Z) (c : ascii) (rest : string) :
  0 <= s -> 0 <= e -> Ascii.eqb c "b" = false ->
  replace "bytes=" "" (range_value s e ++ String c rest) =
    (PyInt.str s ++ String "-" (PyInt.str e
       ++ String c (replace "bytes=" "" rest)))%string.
Proof.
  intros Hs He Hc. unfold range_value, replace.
  cbn [String.append replace_from startswith Ascii.eqb Bool.eqb andb
       String.length Nat.sub].
  rewrite append_assoc.
  rewrite (replace_prefix_absent "bytes=" "" "b")
    by first [reflexivity | apply digits_no; [reflexivity|assumption]].
  cbn [String.append replace_from startswith Ascii.eqb Bool.eqb andb].
  rewrite (replace_prefix_absent "bytes=" "" "b")
    by first [reflexivity | apply digits_no; [reflexivity|assumption]].
  cbn [String.append replace_from startswith].
  rewrite Ascii.eqb_sym, Hc. cbn [andb]. reflexivity.
Qed.

End RangeText.

Section MoreBounds.

Lemma range_bounds_open (size s : Z) :
  0 <= s -> range_bounds size (open_range_value s) = Ok (s, size - 1).
Proof.
  intros Hs. unfold range_bounds.
  replace (PyStr.contains "bytes=" (open_range_value s)) with true
    by reflexivity.
  unfold open_range_value, PyStr.replace.
  cbn [String.append PyStr.replace_from PyStr.startswith Ascii.eqb
       Bool.eqb andb String.length Nat.sub].
  assert (Hb : PyStr.mem "b" (PyInt.str s ++ "-") = false).
  { rewrite mem_append, (digits_no "b" s eq_refl Hs). reflexivity. }
  rewrite (replace_absent "bytes=" "" "b" _ eq_refl Hb).
  change (PyInt.str s ++ "-")%string
    with (PyInt.str s ++ String "-" EmptyString)%string.
  rewrite split_append by (apply digits_no; [reflexivity|assumption]).
  cbn [PyStr.split index nth_error rbind PyStr.truthy].
  rewrite str_truthy, int_str by assumption. reflexivity.
Qed.

Lemma range_bounds_trailing (size s e : Z) (junk : string) :
  0 <= s -> 0 <= e ->
  range_bounds size (range_value s e ++ String "-" junk) = Ok (s, e).
Proof.
  intros Hs He. unfold range_bounds.
  replace (PyStr.contains "bytes=" (range_value s e ++ String "-" junk))
    with true by reflexivity.
  rewrite (replace_range_value s e "-" junk Hs He eq_refl).
  rewrite split_append by (apply digits_no; [reflexivity|assumption]).
  rewrite split_append by (apply digits_no; [reflexivity|assumption]).
  cbn [index nth_error rbind].
  rewrite !str_truthy, !int_str by assumption. reflexivity.
Qed.






End MoreBounds.

Section LateFailures.

Variable base : base_class.
Variable fs : filesystem.
Variable req : request.

Hypothesis audio : is_audio (path req) = true.

(** The file cannot be opened once the 200 header block is out. *)
Lemma full_then_500 (size : Z) (ex : exn) :
  path_exists fs (filepath req) = true ->
  path_getsize fs (filepath req) = Ok size ->
  (forall c t, headers_get (headers req) "Range" <> Some (String c t)) ->
  open_rb fs (filepath req) = Raise ex ->
  exists r r',
    reply base fs req = [r; r'] /\
    status r = 200 /\ body r = [] /\
    In ("Content-Length", PyInt.str size) (fields r) /\
    status r' = 500 /\ reason r' = str_exn base ex.
Proof.
  intros Hex Hsz Hr Hop.
  unfold reply, after_GET, do_GET, filepath in *.
  rewrite audio. exec. rewrite Hex, Hsz.
  destruct (headers_get (headers req) "Range") as [[|c t]|];
    [|destruct (Hr c t eq_refl)|];
    exec; rewrite audio, Hop; exec;
    destruct (responses base 500) as [[short long]|]; error_cases;
    simpl; do 2 eexists; (split; [reflexivity|]); simpl; auto 10.
Qed.


End LateFailures.

Section Tail.

Variable content : list byte.

Lemma seek_read_tail (s : Z) :
  0 <= s -> s <= Z.of_nat (List.length content) ->
  seek_read content s (Z.of_nat (List.length content) - 1 - s + 1) =
    Ok (skipn (Z.to_nat s) content).
Proof.
  intros Hs Hle. unfold seek_read.
  destruct (Z.ltb_spec s 0); [lia|].
  destruct (Z.ltb_spec (Z.of_nat (List.length content) - 1 - s + 1) (-1));
    [lia|].
  destruct (Z.eqb_spec (Z.of_nat (List.length content) - 1 - s + 1) (-1));
    [lia|].
  f_equal. apply firstn_all2. rewrite length_skipn. lia.
Qed.


End Tail.

(** ** Further properties of the handler *)

(** X1.  An open-ended range [Range: bytes=s-] with [0 <= s <= size] on
    an existing audio file is answered by one 206 response whose body is
    the file from byte [s] to its end, with [Content-Length: size-s] and
    [Content-Range: bytes s-(size-1)/size]. *)
Theorem open_ended_range_serves_tail
    (base : base_class) (fs : filesystem) (req : request)
    (content : list byte) (s : Z) :
  is_audio (path req) = true ->
  holds_file fs (filepath req) content ->
  headers_get (headers req) "Range" = Some (open_range_value s) ->
  0 <= s -> s <= Z.of_nat (List.length content) ->
  exists r,
    reply base fs req = [r] /\ status r = 206 /\
    body r = skipn (Z.to_nat s) content /\
    In ("Content-Length", PyInt.str (Z.of_nat (List.length content) - s))
       (fields r) /\
    In ("Content-Range",
        content_range s (Z.of_nat (List.length content) - 1)
          (Z.of_nat (List.length content))) (fields r).
Proof.
  intros Ha Hfile Hr Hs Hle.
  destruct (partial_reply base fs req Ha content (open_range_value s) s
              (Z.of_nat (List.length content) - 1) _ Hfile Hr eq_refl
              (range_bounds_open _ s Hs) (seek_read_tail content s Hs Hle))
    as (r & Hrep & Hst & Hbody & Hcl & Hcr).
  exists r.
  replace (Z.of_nat (List.length content) - 1 - s + 1)
    with (Z.of_nat (List.length content) - s) in Hcl by lia.
  auto 10.
Qed.

Lemma open_ended_range_serves_tail_witness :
  exists r,
    reply Demo.base Demo.fs (Demo.get "/ten.mp3" [("Range", "bytes=4-")])
      = [r] /\
    status r = 206 /\
    body r = skipn (Z.to_nat 4) Demo.ten /\
    In ("Content-Length", PyInt.str (Z.of_nat (List.length Demo.ten) - 4))
       (fields r) /\
    In ("Content-Range",
        content_range 4 (Z.of_nat (List.length Demo.ten) - 1)
          (Z.of_nat (List.length Demo.ten))) (fields r).
Proof.
  apply (open_ended_range_serves_tail Demo.base Demo.fs
           (Demo.get "/ten.mp3" [("Range", "bytes=4-")]) Demo.ten 4).
  - reflexivity.
  - repeat split; reflexivity.
  - reflexivity.
  - lia.
  - vm_compute. discriminate.
Defined.







(** X5.  Only the first two pieces between ['-'] characters are read:
    [Range: bytes=s-e-junk] is served exactly as [Range: bytes=s-e],
    whatever follows the second ['-']. *)
Theorem trailing_pieces_ignored
    (base : base_class) (fs : filesystem) (req : request)
    (content : list byte) (s e : Z) (junk : string) :
  is_audio (path req) = true ->
  holds_file fs (filepath req) content ->
  headers_get (headers req) "Range" =
    Some (range_value s e ++ String "-" junk)%string ->
  0 <= s -> s <= e -> e < Z.of_nat (List.length content) ->
  range_bounds (Z.of_nat (List.length content))
    (range_value s e ++ String "-" junk) = Ok (s, e) /\
  exists r,
    reply base fs req = [r] /\ status r = 206 /\
    body r = bytes_between content s e /\
    In ("Content-Range",
        content_range s e (Z.of_nat (List.length content))) (fields r).
Proof.
  intros Ha Hfile Hr Hs Hse He.
  pose proof (range_bounds_trailing (Z.of_nat (List.length content)) s e junk
                Hs ltac:(lia)) as Hb.
  split; [exact Hb|].
  destruct (seek_read_inside content s e Hs Hse He) as [Hread _].
  destruct (partial_reply base fs req Ha content _ s e _ Hfile Hr eq_refl
              Hb Hread) as (r & Hrep & Hst & Hbody & _ & Hcr).
  exists r. auto.
Qed.

Lemma trailing_pieces_ignored_witness :
  range_bounds (Z.of_nat (List.length Demo.ten))
    (range_value 2 5 ++ String "-" "abc") = Ok (2, 5) /\
  exists r,
    reply Demo.base Demo.fs
      (Demo.get "/ten.mp3" [("Range", "bytes=2-5-abc")]) = [r] /\
    status r = 206 /\
    body r = bytes_between Demo.ten 2 5 /\
    In ("Content-Range",
        content_range 2 5 (Z.of_nat (List.length Demo.ten))) (fields r).
Proof.
  apply (trailing_pieces_ignored Demo.base Demo.fs
           (Demo.get "/ten.mp3" [("Range", "bytes=2-5-abc")])
           Demo.ten 2 5 "abc").
  - reflexivity.
  - repeat split; reflexivity.
  - reflexivity.
  - lia.
  - lia.
  - vm_compute. reflexivity.
Defined.

(** X6.  When the file exists and its size is known but it cannot be
    opened (a directory named like an audio file, a file that is not
    readable), a GET without a Range field has already sent the 200
    header block with [Content-Length]: the handler then sends a second
    response, 500, with the text of the failure, and no body for the
    first. *)
Theorem unreadable_file_200_then_500
    (base : base_class) (fs : filesystem) (req : request)
    (size : Z) (ex : exn) :
  is_audio (path req) = true ->
  path_exists fs (filepath req) = true ->
  path_getsize fs (filepath req) = Ok size ->
  (forall c t, headers_get (headers req) "Range" <> Some (String c t)) ->
  open_rb fs (filepath req) = Raise ex ->
  exists r r',
    reply base fs req = [r; r'] /\
    status r = 200 /\ body r = [] /\
    In ("Content-Length", PyInt.str size) (fields r) /\
    status r' = 500 /\ reason r' = str_exn base ex.
Proof.
  intros Ha Hex Hsz Hr Hop.
  exact (full_then_500 base fs req Ha size ex Hex Hsz Hr Hop).
Qed.

Section AudioFields.

Variable base : base_class.
Variable req : request.

Hypothesis audio : is_audio (path req) = true.

Abbreviation keeps := (keeps_audio (path req)).

Lemma audio_ret {A : Type} (a : A) : keeps (ret a).
Proof. intros h H. exact H. Qed.

Lemma audio_lift {A : Type} (r : result A) : keeps (lift r).
Proof. intros h H. exact H. Qed.

Lemma audio_bind {A B : Type} (m : M A) (k : A -> M B) :
  keeps m -> (forall a, keeps (k a)) -> keeps (bind m k).
Proof.
  intros Hm Hk h H. unfold bind. specialize (Hm h H).
  destruct (m h) as [[a|e] h']; simpl in *; [apply Hk|]; assumption.
Qed.

Lemma audio_try {A : Type} (m : M A) (k : exn -> M A) :
  keeps m -> (forall e, keeps (k e)) -> keeps (try_except m k).
Proof.
  intros Hm Hk h H. unfold try_except. specialize (Hm h H).
  destruct (m h) as [[a|e] h']; simpl in *; [|apply Hk]; assumption.
Qed.

Lemma audio_send_header (k v : string) : keeps (send_header k v).
Proof. intros h H. exact H. Qed.

Lemma audio_send_response (code : Z) (m : option string) :
  keeps (send_response base code m).
Proof. intros h H. exact H. Qed.

Lemma audio_wfile_write (data : list byte) : keeps (wfile_write data).
Proof.
  intros h H. simpl. apply Forall_app. split; [exact H|].
  constructor; [exact I|constructor].
Qed.

Lemma audio_open (fs : filesystem) (p : string) : keeps (open_ fs p).
Proof. intros h H. exact H. Qed.

Lemma audio_end_headers : keeps (end_headers req).
Proof.
  intros h H. unfold end_headers. rewrite audio. exec.
  apply Forall_app. split; [exact H|].
  constructor; [|constructor].
  exists (headers_buffer h ++
          [Field "Access-Control-Allow-Origin" "*";
           Field "Access-Control-Allow-Methods" "GET, OPTIONS";
           Field "Access-Control-Allow-Headers" "*"]).
  unfold audio_lines. rewrite <- !app_assoc. reflexivity.
Qed.

Ltac audio_steps :=
  repeat match goal with
         | |- keeps_audio _ (bind _ _) => apply audio_bind; [|intros ?]
         | |- keeps_audio _ (lift _) => apply audio_lift
         | |- keeps_audio _ (ret _) => apply audio_ret
         | |- keeps_audio _ (send_response _ _ _) => apply audio_send_response
         | |- keeps_audio _ (send_header _ _) => apply audio_send_header
         | |- keeps_audio _ (end_headers _) => apply audio_end_headers
         | |- keeps_audio _ (wfile_write _) => apply audio_wfile_write
         | |- keeps_audio _ (open_ _ _) => apply audio_open
         | |- keeps_audio _ (if ?b then _ else _) => destruct b
         | |- keeps_audio _ (let (_, _) := ?p in _) => destruct p
         end.

Lemma audio_send_error (code : Z) (m x : option string) :
  keeps (send_error base req code m x).
Proof.
  unfold send_error.
  destruct (match responses base code with Some sl => sl | None => _ end)
    as [short long].
  audio_steps.
Qed.

Lemma audio_do_GET (fs : filesystem) : keeps (do_GET base fs req).
Proof.
  unfold do_GET. rewrite audio.
  apply audio_try; [|intros e; apply audio_send_error].
  cbv zeta.
  destruct (negb _); [apply audio_send_error|].
  apply audio_bind; [apply audio_lift|intros size].
  destruct (headers_get (headers req) "Range") as [[|c rh]|]; audio_steps.
Qed.

Lemma fields_of_app (a b : list line) :
  fields_of (a ++ b) = fields_of a ++ fields_of b.
Proof. unfold fields_of. apply flat_map_app. Qed.

Lemma sent_audio (w : list chunk) :
  Forall (chunk_audio (path req)) w ->
  Forall (ends_audio (path req)) (sent w).
Proof.
  induction 1 as [|c w Hc Hw IH]; simpl; [constructor|].
  destruct c as [[|[code m|k v] ls]|data]; auto.
  constructor; [|exact IH].
  destruct Hc as (pre & Hpre).
  destruct pre as [|l pre]; [discriminate Hpre|].
  injection Hpre as _ ->.
  exists (fields_of pre). unfold ends_audio. simpl.
  rewrite fields_of_app. reflexivity.
Qed.

End AudioFields.

Lemma unreadable_file_200_then_500_witness :
  exists r r',
    reply Demo.base dir_fs (Demo.get "/album.mp3" []) = [r; r'] /\
    status r = 200 /\ body r = [] /\
    In ("Content-Length", PyInt.str 4096) (fields r) /\
    status r' = 500 /\
    reason r' = str_exn Demo.base (OSError "[Errno 21] Is a directory").
Proof.
  apply (unreadable_file_200_then_500 Demo.base dir_fs
           (Demo.get "/album.mp3" []) 4096
           (OSError "[Errno 21] Is a directory")).
  - reflexivity.
  - reflexivity.
  - reflexivity.
  - intros c t. simpl. discriminate.
  - reflexivity.
Defined.

(** X7.  Every response to a request for an audio path, the 404 and
    500 error pages included, ends its header block with
    [Accept-Ranges: bytes] and [Content-Type: audio/...]; the type is
    [audio/mpeg] for [.mp3] and [audio/wav] for [.wav] and for
    [.ogg]. *)
Theorem audio_fields_close_every_response
    (base : base_class) (fs : filesystem) (req : request) :
  is_audio (path req) = true ->
  Forall (ends_audio (path req)) (reply base fs req) /\
  (PyStr.endswith (path req) ".mp3" = true ->
   content_type (path req) = "audio/mpeg") /\
  (PyStr.endswith (path req) ".wav" = true \/
   PyStr.endswith (path req) ".ogg" = true ->
   content_type (path req) = "audio/wav").
Proof.
  intros Ha. split; [|split].
  - apply (sent_audio req).
    apply (audio_do_GET base req Ha fs fresh). constructor.
  - intros H. unfold content_type. rewrite H. reflexivity.
  - intros H. unfold content_type.
    destruct (PyStr.endswith (path req) ".mp3") eqn:E; [|reflexivity].
    destruct H as [H|H].
    + pose proof (endswith_same_length (path req) ".mp3" ".wav" eq_refl E H).
      discriminate.
    + pose proof (endswith_same_length (path req) ".mp3" ".ogg" eq_refl E H).
      discriminate.
Qed.

Lemma audio_fields_close_every_response_witness :
  Forall (ends_audio "/nope.ogg")
    (reply Demo.base Demo.fs (Demo.get "/nope.ogg" [])) /\
  (PyStr.endswith "/nope.ogg" ".mp3" = true ->
   content_type "/nope.ogg" = "audio/mpeg") /\
  (PyStr.endswith "/nope.ogg" ".wav" = true \/
   PyStr.endswith "/nope.ogg" ".ogg" = true ->
   content_type "/nope.ogg" = "audio/wav").
Proof.
  apply (audio_fields_close_every_response Demo.base Demo.fs
           (Demo.get "/nope.ogg" [])).
  reflexivity.
Defined.

(** X8.  The header fields of the 200 response to a GET without a Range
    field, in order: [do_GET] and [end_headers] both send
    [Accept-Ranges] and [Content-Type], so each of them is there
    twice, around the three cross-origin fields. *)
Theorem full_response_fields
    (base : base_class) (fs : filesystem) (req : request) (size : Z) :
  is_audio (path req) = true ->
  path_exists fs (filepath req) = true ->
  path_getsize fs (filepath req) = Ok size ->
  headers_get (headers req) "Range" = None ->
  exists r rest,
    reply base fs req = r :: rest /\ status r = 200 /\
    fields r =
      [("Server", version_string base);
       ("Date", date_time_string base);
       ("Content-Type", content_type (path req));
       ("Content-Length", PyInt.str size);
       ("Accept-Ranges", "bytes");
       ("Access-Control-Allow-Origin", "*");
       ("Access-Control-Allow-Methods", "GET, OPTIONS");
       ("Access-Control-Allow-Headers", "*");
       ("Accept-Ranges", "bytes");
       ("Content-Type", content_type (path req))].
Proof.
  intros Ha Hex Hsz Hr.
  unfold reply, after_GET, do_GET, filepath in *.
  rewrite Ha. exec. rewrite Hex, Hsz, Hr. exec. rewrite Ha.
  destruct (open_rb fs _) as [f|ex]; exec;
    [|destruct (responses base 500) as [[short long]|]; error_cases];
    simpl; do 2 eexists; (split; [reflexivity|]); split; reflexivity.
Qed.

Lemma full_response_fields_witness :
  exists r rest,
    reply Demo.base Demo.fs (Demo.get "/ten.mp3" []) = r :: rest /\
    status r = 200 /\
    fields r =
      [("Server", version_string Demo.base);
       ("Date", date_time_string Demo.base);
       ("Content-Type", content_type "/ten.mp3");
       ("Content-Length", PyInt.str 10);
       ("Accept-Ranges", "bytes");
       ("Access-Control-Allow-Origin", "*");
       ("Access-Control-Allow-Methods", "GET, OPTIONS");
       ("Access-Control-Allow-Headers", "*");
       ("Accept-Ranges", "bytes");
       ("Content-Type", content_type "/ten.mp3")].
Proof.
  apply (full_response_fields Demo.base Demo.fs (Demo.get "/ten.mp3" []) 10);
    reflexivity.
Defined.

(** X9.  A GET for an audio path never lets an exception escape and
    sends one or two responses: the first is 404, 500, 200 or 206, and
    a second one comes only after a 200 or a 206 and is a 500. *)
Theorem audio_request_responses
    (base : base_class) (fs : filesystem) (req : request) :
  is_audio (path req) = true ->
  fst (do_GET base fs req fresh) = Ok tt /\
  ((exists r, reply base fs req = [r] /\ first_status r) \/
   (exists r r', reply base fs req = [r; r'] /\
                 (status r = 200 \/ status r = 206) /\ status r' = 500)).
Proof.
  intros Ha. destruct (audio_outcome base fs req Ha) as (H1 & _ & H3).
  split; assumption.
Qed.

Lemma audio_request_responses_witness :
  fst (do_GET Demo.base Demo.fs Demo.backwards fresh) = Ok tt /\
  ((exists r, reply Demo.base Demo.fs Demo.backwards = [r] /\ first_status r) \/
   (exists r r', reply Demo.base Demo.fs Demo.backwards = [r; r'] /\
                 (status r = 200 \/ status r = 206) /\ status r' = 500)).
Proof.
  apply (audio_request_responses Demo.base Demo.fs Demo.backwards).
  reflexivity.
Defined.

(** X10.  A GET for an audio path opens at most one file, and no file
    other than the request path without its leading slashes. *)
Theorem audio_request_opens_one_file
    (base : base_class) (fs : filesystem) (req : request) :
  is_audio (path req) = true ->
  opened (after_GET base fs req) = [] \/
  opened (after_GET base fs req) = [filepath req].
Proof.
  intros Ha. destruct (audio_outcome base fs req Ha) as (_ & H2 & _).
  exact H2.
Qed.

Lemma audio_request_opens_one_file_witness :
  opened (after_GET Demo.base Demo.fs (Demo.get "//clip.mp3" [])) = [] \/
  opened (after_GET Demo.base Demo.fs (Demo.get "//clip.mp3" []))
    = [filepath (Demo.get "//clip.mp3" [])].
Proof.
  apply (audio_request_opens_one_file Demo.base Demo.fs
           (Demo.get "//clip.mp3" [])).
  reflexivity.
Defined.

Lemma leading_slashes_do_not_matter_witness :
  do_GET Demo.base Demo.fs
    (mkRequest "GET"
       (string_of_list_ascii (repeat "/"%char 3) ++ "clip.mp3") []) =
  do_GET Demo.base Demo.fs (mkRequest "GET" "clip.mp3" []).
Proof.
  apply (leading_slashes_do_not_matter Demo.base Demo.fs
           "GET" "clip.mp3" [] 3).
  reflexivity.
Defined.


Section GetSoundsFacts.

Import GetSounds.



End GetSoundsFacts.


(** X14.  [main] lists as required exactly the file names of the table
    other than [battlefield-music.mp3], each on a line ["  - name"];
    with the table of the repository these are the four other files,
    in the order of the table. *)
Theorem main_lists_required_files
    (table : list (string * option string)) (f : string) :
  (In ("  - " ++ f)%string (GetSounds.main table []) <->
   In f (map fst table) /\ f <> "battlefield-music.mp3") /\
  filter (fun l => PyStr.startswith "  - " l)
    (GetSounds.main GetSounds.sounds []) =
    ["  - menu-music.mp3"; "  - rifle-shoot.mp3"; "  - pistol-shoot.mp3";
     "  - bullet-shoot.mp3"].
Proof.
  split; [|reflexivity].
  unfold GetSounds.main. cbn [app].
  set (keep := fun filename : string =>
                 negb (String.eqb filename "battlefield-music.mp3")).
  split.
  - intros H. simpl in H.
    do 13 (destruct H as [H|H]; [discriminate H|]).
    apply in_app_or in H. destruct H as [H|H].
    + apply in_map_iff in H. destruct H as (g & Hg & Hin).
      injection Hg as ->.
      apply filter_In in Hin. destruct Hin as [Hin Hk].
      split; [exact Hin|]. unfold keep in Hk.
      intros ->. discriminate Hk.
    + destruct H as [H|[]]. discriminate H.
  - intros [Hin Hne].
    simpl. do 13 right. apply in_or_app. left.
    apply in_map_iff. exists f. split; [reflexivity|].
    apply filter_In. split; [exact Hin|].
    unfold keep. destruct (String.eqb_spec f "battlefield-music.mp3");
      [contradiction|reflexivity].
Qed.
